(** * Price-quantile predictors of the car-dealer CRM: a shallow embedding

    The development follows the three scripts under [server/ml]:

    - [predict_realistic.py]: the rule-based (heuristic) predictor;
    - [predict_quantiles.py]: the predictor backed by a trained artifact;
    - [train_quantiles.py]:   the offline trainer that writes the artifact.

    Conventions of the embedding.

    - A request payload is the dictionary [json.loads] returns: a finite map
      from keys to JSON values.
    - Python numbers keep their two kinds: [int] is an unbounded integer,
      [float] a binary64.  The value of a float is idealised as an exact
      rational: rounding error, infinities and NaN are outside the model.
      What is kept of binary64 is the one place where it is visible as an
      exception: converting an [int] outside the double range to [float]
      (which mixed arithmetic and true division do) raises [OverflowError].
    - A raised exception is the left summand of the result, named by its
      Python class.
    - The regressors of scikit-learn are opaque: an artifact carries three
      functions from a feature row to a number. *)

From Stdlib Require Import ZArith QArith Qround Qminmax Qabs Lqa Lia.
From Stdlib Require Import String Ascii List.
From stdpp Require Import gmap strings.

Local Open Scope Z_scope.

(** ** Exceptions *)

Inductive exn : Type :=
| OverflowError
| TypeError
| AttributeError
| KeyError
| ValueError
| ZeroDivisionError.


Definition py (A : Type) : Type := (exn + A)%type.

Definition raise {A : Type} (e : exn) : py A := inl e.
Definition ret {A : Type} (a : A) : py A := inr a.

Definition bind {A B : Type} (m : py A) (k : A -> py B) : py B :=
  match m with
  | inl e => inl e
  | inr a => k a
  end.

Declare Scope py_scope.
Delimit Scope py_scope with py.
Notation "'let*' x ':=' m 'in' k" := (bind m (fun x => k))
  (at level 10, x name, m at level 100, k at level 200) : py_scope.
Local Open Scope py_scope.

(** ** JSON values and payloads *)

#[warnings="-register-all"]
Inductive json : Type :=
| JNull
| JBool (b : bool)
| JInt (z : Z)
| JFloat (q : Q)
| JStr (s : string)
| JArr (l : list json)
| JObj (l : list (string * json)).

(** [payload.get(key, default)] *)
Definition get (payload : gmap string json) (key : string) (dflt : json) : json :=
  match payload !! key with
  | Some v => v
  | None => dflt
  end.

(** ** Python numbers *)

Inductive num : Type :=
| PInt (z : Z)
| PFloat (q : Q).

(** The mathematical value of a number. *)
Definition val (n : num) : Q :=
  match n with
  | PInt z => inject_Z z
  | PFloat q => q
  end.

(** An [int] converts to a binary64 when it rounds to a finite double: the
    first integer that does not is the midpoint between the largest double
    and [2^1024]. *)
Definition float_limit : Z := 2 ^ 1024 - 2 ^ 970.

Definition to_float (n : num) : py Q :=
  match n with
  | PInt z => if Z.abs z <? float_limit then ret (inject_Z z) else raise OverflowError
  | PFloat q => ret q
  end.

(** A JSON value used as an operand of arithmetic: [bool] is a subclass of
    [int]; every other kind raises [TypeError]. *)
Definition as_num (j : json) : py num :=
  match j with
  | JInt z => ret (PInt z)
  | JFloat q => ret (PFloat q)
  | JBool b => ret (PInt (Z.b2z b))
  | _ => raise TypeError
  end.

Definition py_arith (fz : Z -> Z -> Z) (fq : Q -> Q -> Q) (a b : num) : py num :=
  match a, b with
  | PInt x, PInt y => ret (PInt (fz x y))
  | _, _ =>
      let* x := to_float a in
      let* y := to_float b in
      ret (PFloat (fq x y))
  end.

Definition py_add : num -> num -> py num := py_arith Z.add Qplus.
Definition py_sub : num -> num -> py num := py_arith Z.sub Qminus.
Definition py_mul : num -> num -> py num := py_arith Z.mul Qmult.

(** True division [a / b]: always a float; on two ints the quotient itself
    has to fit a double. *)
Definition py_truediv (a b : num) : py num :=
  match a, b with
  | PInt x, PInt y =>
      if y =? 0 then raise ZeroDivisionError
      else
        let r := (inject_Z x / inject_Z y)%Q in
        if Qle_bool (inject_Z float_limit) (Qabs r) then raise OverflowError
        else ret (PFloat r)
  | _, _ =>
      let* x := to_float a in
      let* y := to_float b in
      if Qeq_bool y 0 then raise ZeroDivisionError else ret (PFloat (x / y)%Q)
  end.

Definition py_neg (a : num) : num :=
  match a with
  | PInt z => PInt (- z)
  | PFloat q => PFloat (- q)%Q
  end.

Definition py_abs (a : num) : num :=
  match a with
  | PInt z => PInt (Z.abs z)
  | PFloat q => PFloat (Qabs q)
  end.

(** Comparisons between [int] and [float] are exact in Python. *)
Definition py_le (a b : num) : bool := Qle_bool (val a) (val b).
Definition py_lt (a b : num) : bool := negb (Qle_bool (val b) (val a)).
Definition py_gt (a b : num) : bool := py_lt b a.

(** [min(a, b)] and [max(a, b)] keep the first argument on a tie, and
    return the argument itself (so its kind). *)
Definition py_min (a b : num) : num := if py_lt b a then b else a.
Definition py_max (a b : num) : num := if py_gt b a then b else a.

(** [int(x)]: truncation toward zero. *)
Definition Qtrunc (q : Q) : Z :=
  if Qle_bool 0 q then Qfloor q else Qceiling q.

Definition py_int (a : num) : Z :=
  match a with
  | PInt z => z
  | PFloat q => Qtrunc q
  end.

(** [round(x, 2)] on a float: to the nearest hundredth, a tie to the even
    one. *)
Definition round_half_even (q : Q) : Z :=
  let n := Qfloor q in
  let f := (q - inject_Z n)%Q in
  match Qcompare f (1 # 2) with
  | Lt => n
  | Gt => n + 1
  | Eq => if Z.even n then n else n + 1
  end.

Definition py_round2 (q : Q) : Q := (inject_Z (round_half_even (q * 100)) / 100)%Q.

Definition py_round2_num (a : num) : num :=
  match a with
  | PInt z => PInt z
  | PFloat q => PFloat (py_round2 q)
  end.

(** ** Strings *)

(** [str.lower()].  Only the ASCII letters are folded: no other character
    lowers to one of the letters the scripts compare against. *)
Definition lower_ascii (c : ascii) : ascii :=
  let n := N_of_ascii c in
  if ((65 <=? n) && (n <=? 90))%N then ascii_of_N (n + 32) else c.

Fixpoint lower (s : string) : string :=
  match s with
  | EmptyString => EmptyString
  | String c s' => String (lower_ascii c) (lower s')
  end.

(** [needle in haystack] on two strings *)
Fixpoint contains (needle haystack : string) : bool :=
  String.prefix needle haystack ||
  match haystack with
  | EmptyString => false
  | String _ rest => contains needle rest
  end.

(** ** The response of a predictor *)

Record result : Type := {
  p10 : Z;
  p50 : Z;
  p90 : Z;
  prob14 : Q;
  prob30 : Q
}.

(** * The heuristic predictor: [predict_realistic.py] *)

Module Heuristic.

(** Lines 20-31: the price band of an age. *)
Definition base_price (age : num) : Z :=
  if py_le age (PInt 1) then 350000
  else if py_le age (PInt 3) then 250000
  else if py_le age (PInt 5) then 180000
  else if py_le age (PInt 7) then 140000
  else if py_le age (PInt 10) then 100000
  else 70000.

(** Lines 38-44: the mileage adjustment.  The second component is
    [km_bonus], a variable only the [else] branch assigns. *)
Definition km_penalty (km_diff : num) (base_price : Z) : py (num * option num) :=
  if py_gt km_diff (PInt 0) then
    let* a := py_mul km_diff (PFloat 0.5) in
    let* b := py_mul (PInt base_price) (PFloat 0.3) in
    ret (py_min a b, None)
  else
    let* a := py_mul (py_abs km_diff) (PFloat 0.3) in
    let* b := py_mul (PInt base_price) (PFloat 0.15) in
    let km_bonus := py_min a b in
    ret (py_neg km_bonus, Some km_bonus).

(** Lines 47-50.  [gear.lower()] exists on strings only. *)
Definition trans_adjustment (gear : json) (base_price : Z) : py num :=
  match gear with
  | JStr s =>
      if existsb (String.eqb (lower s)) ["auto"; "automatic"; "automat"]%string
      then py_mul (PInt base_price) (PFloat 0.05)
      else ret (PInt 0)
  | _ => raise AttributeError
  end.

(** Lines 53-60.  The table is built first; a list or an object is not
    hashable and cannot be looked up, any other key that is not in the
    table yields the default. *)
Definition fuel_adjustment (fuel_type : json) (base_price : Z) : py num :=
  let* electric := py_mul (PInt base_price) (PFloat 0.20) in
  let* hybrid := py_mul (PInt base_price) (PFloat 0.10) in
  let* diesel := py_mul (PInt base_price) (PFloat 0.02) in
  let fuel_adjustments : gmap string num :=
    <["Electric" := electric]> (<["Hybrid" := hybrid]> (<["Diesel" := diesel]>
      (<["Petrol" := PInt 0]> (<["Bensin" := PInt 0]> ∅)))) in
  match fuel_type with
  | JStr s =>
      match fuel_adjustments !! s with
      | Some a => ret a
      | None => ret (PInt 0)
      end
  | JArr _ | JObj _ => raise TypeError
  | _ => ret (PInt 0)
  end.

(** Line 63.  A string or a list can be repeated 2000 times but not
    compared with a float, [None] and objects cannot be multiplied: every
    operand that is not a number ends in [TypeError]. *)
Definition equipment_adjustment (equipment_score : json) (base_price : Z) : py num :=
  let* e := as_num equipment_score in
  let* a := py_mul e (PInt 2000) in
  let* b := py_mul (PInt base_price) (PFloat 0.10) in
  ret (py_min a b).

(** Line 66 *)
Definition estimated_price
    (base_price : Z) (km_penalty trans_adjustment fuel_adjustment equipment_adjustment : num)
  : py num :=
  let* e := py_sub (PInt base_price) km_penalty in
  let* e := py_add e trans_adjustment in
  let* e := py_add e fuel_adjustment in
  py_add e equipment_adjustment.

(** Line 69 *)
Definition realistic_bounds (estimated_price : num) : num :=
  py_max (PInt 30000) (py_min (PInt 500000) estimated_price).

(** Lines 76-78 *)
Definition quantiles (estimated_price : num) : py (Z * Z * Z) :=
  let* x10 := py_mul estimated_price (PFloat 0.87) in
  let* x90 := py_mul estimated_price (PFloat 1.13) in
  ret (py_int x10, py_int estimated_price, py_int x90).

(** Lines 82-83 *)
Definition km_factor (km : num) : py num :=
  let* k := py_truediv km (PInt 250000) in
  let* k := py_sub (PFloat 1.0) k in
  ret (py_max (PFloat 0.2) (py_min (PFloat 0.9) k)).

Definition age_factor (age : num) : py num :=
  let* a := py_truediv age (PInt 15) in
  let* a := py_sub (PFloat 1.0) a in
  ret (py_max (PFloat 0.2) (py_min (PFloat 0.9) a)).

(** Lines 86-87 *)
Definition sale_probability (km_factor age_factor : num) : py (num * num) :=
  let* s := py_mul km_factor (PFloat 0.25) in
  let* s := py_add (PFloat 0.3) s in
  let* t := py_mul age_factor (PFloat 0.25) in
  let* s := py_add s t in
  let prob14 := py_round2_num s in
  let* u := py_add prob14 (PFloat 0.20) in
  let prob30 := py_round2_num (py_min (PFloat 0.95) u) in
  ret (prob14, prob30).

(** The variables of the script after a run that raised nothing. *)
Record vars : Type := {
  v_km : num;
  v_age : num;
  v_base_price : Z;
  v_km_diff : num;
  v_km_penalty : num;
  v_km_bonus : option num;
  v_trans_adjustment : num;
  v_fuel_adjustment : num;
  v_equipment_score : json;
  v_equipment_adjustment : num;
  v_price : num;
  v_estimated_price : num;
  v_result : result
}.

(** Lines 19-96, on the five values read from the payload. *)
Definition script (year km gear fuel_type equipment_score : json) : py vars :=
  let* year := as_num year in
  let* age := py_sub (PInt 2025) year in
  let base_price := base_price age in
  let* expected_km := py_mul age (PInt 12000) in
  let* km := as_num km in
  let* km_diff := py_sub km expected_km in
  let* adj := km_penalty km_diff base_price in
  let km_penalty := fst adj in
  let* trans_adjustment := trans_adjustment gear base_price in
  let* fuel_adjustment := fuel_adjustment fuel_type base_price in
  let* equipment_adjustment := equipment_adjustment equipment_score base_price in
  let* price :=
    estimated_price base_price km_penalty trans_adjustment fuel_adjustment
      equipment_adjustment in
  let estimated_price := realistic_bounds price in
  let* q := quantiles estimated_price in
  let* km_factor := km_factor km in
  let* age_factor := age_factor age in
  let* pr := sale_probability km_factor age_factor in
  ret {| v_km := km;
         v_age := age;
         v_base_price := base_price;
         v_km_diff := km_diff;
         v_km_penalty := km_penalty;
         v_km_bonus := snd adj;
         v_trans_adjustment := trans_adjustment;
         v_fuel_adjustment := fuel_adjustment;
         v_equipment_score := equipment_score;
         v_equipment_adjustment := equipment_adjustment;
         v_price := price;
         v_estimated_price := estimated_price;
         v_result := {| p10 := fst (fst q);
                        p50 := snd (fst q);
                        p90 := snd q;
                        prob14 := val (fst pr);
                        prob30 := val (snd pr) |} |}.

(** Lines 8-15: the payload and its five reads. *)
Definition run (payload : gmap string json) : py vars :=
  let year := get payload "year" (JInt 2018) in
  let km := get payload "km" (JInt 100000) in
  let gear := get payload "gear" (JStr "Manual") in
  let fuel_type := get payload "fuel_type" (JStr "Petrol") in
  let equipment_score := get payload "equipment_len" (JInt 0) in
  script year km gear fuel_type equipment_score.

(** What the script prints. *)
Definition predict (payload : gmap string json) : py result :=
  let* v := run payload in ret (v_result v).

End Heuristic.

(** * pandas cells

    A cell of a frame holds a JSON value; [JNull] also stands for NaN, which
    [fillna] treats alike.  Arithmetic on columns is idealised as exact. *)

(** An operand of column arithmetic: a missing value propagates, a string,
    list or object raises [TypeError]. *)
Definition np_num (cell : json) : py (option num) :=
  match cell with
  | JNull => ret None
  | JInt z => ret (Some (PInt z))
  | JFloat q => ret (Some (PFloat q))
  | JBool b => ret (Some (PInt (Z.b2z b)))
  | _ => raise TypeError
  end.

Definition np_cell (x : option num) : json :=
  match x with
  | None => JNull
  | Some (PInt z) => JInt z
  | Some (PFloat q) => JFloat q
  end.

Definition np_sub (a b : option num) : option num :=
  match a, b with
  | Some (PInt x), Some (PInt y) => Some (PInt (x - y))
  | Some x, Some y => Some (PFloat (val x - val y)%Q)
  | _, _ => None
  end.

(** [a / b] on columns is always a float column. *)
Definition np_div (a b : option num) : option num :=
  match a, b with
  | Some x, Some y => Some (PFloat (val x / val y)%Q)
  | _, _ => None
  end.

(** [.clip(lower=l)] *)
Definition np_clip_lower (l : Z) (a : option num) : option num :=
  match a with
  | Some x => Some (if py_lt x (PInt l) then PInt l else x)
  | None => None
  end.

(** [column == text], elementwise *)
Definition cell_eq_str (cell : json) (text : string) : bool :=
  match cell with
  | JStr s => String.eqb s text
  | _ => false
  end.

(** [.fillna(0)] *)
Definition fillna0 (cell : json) : json :=
  match cell with
  | JNull => JInt 0
  | _ => cell
  end.

(** * The learned predictor: [predict_quantiles.py] *)

(** The unpickled model: the feature names and three fitted regressors,
    each taken as the function from the one row of [X] to the first entry of
    what [.predict(X)] returns. *)
Record artifact : Type := {
  features : list string;
  model_p10 : list json -> py Q;
  model_p50 : list json -> py Q;
  model_p90 : list json -> py Q
}.

Module Learned.

Section Frame.

(** How pandas prints a cell and names its dtype when a one-row Series is
    converted with [str]; both are left open. *)
Variable cell_text : json -> string.
Variable dtype_name : json -> string.

Definition newline : string := String (ascii_of_N 10) EmptyString.

(** [str(series)] for the column [name] of a one-row frame: the index label
    [0], the cell, and the footer. *)
Definition series_str (name : string) (cell : json) : string :=
  ("0    " ++ cell_text cell ++ newline
     ++ "Name: " ++ name ++ ", dtype: " ++ dtype_name cell)%string.

(** [str(df.get(key, default))]: the column as a Series when the frame has
    it, else the default string itself. *)
Definition str_get (df : gmap string json) (key dflt : string) : string :=
  match df !! key with
  | Some cell => series_str key cell
  | None => dflt
  end.

(** [int(df.get(key, default) == text)] *)
Definition int_get_eq (df : gmap string json) (key dflt text : string) : Z :=
  Z.b2z (cell_eq_str (get df key (JStr dflt)) text).

(** Line 22 *)
Definition is_auto (df : gmap string json) : Z :=
  Z.b2z (String.eqb (lower (str_get df "gear" "Manual")) "auto").

(** Line 24 *)
Definition is_hybrid (df : gmap string json) : Z :=
  Z.b2z (contains "Hybrid" (str_get df "fuel_type" "Petrol")).

(** Lines 16-24: the frame of the payload with the derived columns. *)
Definition derive (payload : gmap string json) : py (gmap string json) :=
  let df := payload in
  let* year := np_num (get df "year" (JInt 2018)) in
  let df := <["age" := np_cell (np_sub (Some (PInt 2025)) year)]> df in
  let* km := np_num (get df "km" (JInt 100000)) in
  let* age := np_num (get df "age" JNull) in
  let df := <["km_per_year" := np_cell (np_div km (np_clip_lower 1 age))]> df in
  let df := <["is_awd" := JInt (int_get_eq df "driveline" "FWD" "AWD")]> df in
  let df := <["is_auto" := JInt (is_auto df)]> df in
  let df := <["is_electric" := JInt (int_get_eq df "fuel_type" "Petrol" "Electric")]> df in
  let df := <["is_hybrid" := JInt (is_hybrid df)]> df in
  ret df.

(** Lines 27-29 *)
Definition fill (features : list string) (df : gmap string json) : gmap string json :=
  fold_left
    (fun df f => match df !! f with Some _ => df | None => <[f := JInt 0]> df end)
    features df.

(** Line 32: [df[features].fillna(0)], the single row. *)
Fixpoint select (features : list string) (df : gmap string json) : py (list json) :=
  match features with
  | [] => ret []
  | f :: rest =>
      match df !! f with
      | None => raise KeyError
      | Some cell => let* row := select rest df in ret (fillna0 cell :: row)
      end
  end.

(** The row handed to the regressors. *)
Definition feature_row (features : list string) (payload : gmap string json)
  : py (list json) :=
  let* df := derive payload in
  select features (fill features df).

Definition clamp (lo hi : Q) (x : num) : num :=
  py_max (PFloat lo) (py_min (PFloat hi) x).

(** Lines 41-52 *)
Definition probabilities (payload : gmap string json) (p10 p90 : Q) : py (num * num) :=
  let* d := py_sub (PFloat p90) (PFloat p10) in
  let band := py_max (PInt 1) d in
  let km_value := get payload "km" (JInt 100000) in
  let age_value := get payload "year" (JInt 2018) in
  let* b := py_truediv band (PInt 500000) in
  let* b := py_sub (PFloat 1.0) b in
  let band_factor := clamp 0.1 0.9 b in
  let* km_value := as_num km_value in
  let* k := py_truediv km_value (PInt 300000) in
  let* k := py_sub (PFloat 1.0) k in
  let km_factor := clamp 0.1 0.9 k in
  let* age_value := as_num age_value in
  let* a := py_sub age_value (PInt 2010) in
  let* a := py_truediv a (PInt 15) in
  let age_factor := clamp 0.1 0.9 a in
  let* s := py_mul band_factor (PFloat 0.3) in
  let* s := py_add (PFloat 0.3) s in
  let* t := py_mul km_factor (PFloat 0.2) in
  let* s := py_add s t in
  let* t := py_mul age_factor (PFloat 0.2) in
  let* s := py_add s t in
  let prob14 := clamp 0.15 0.85 s in
  let* u := py_add prob14 (PFloat 0.15) in
  let prob30 := py_min (PFloat 0.95) u in
  ret (prob14, prob30).

Definition predict (model : artifact) (payload : gmap string json) : py result :=
  let* X := feature_row (features model) payload in
  let* p10 := model_p10 model X in
  let* p50 := model_p50 model X in
  let* p90 := model_p90 model X in
  let* pr := probabilities payload p10 p90 in
  let* prob14 := to_float (fst pr) in
  let* prob30 := to_float (snd pr) in
  ret {| p10 := Qtrunc p10;
         p50 := Qtrunc p50;
         p90 := Qtrunc p90;
         prob14 := py_round2 prob14;
         prob30 := py_round2 prob30 |}.

End Frame.

End Learned.

(** A cell that forces a column read from JSON to the [object] dtype. *)
Definition is_object_cell (cell : json) : bool :=
  match cell with
  | JStr _ | JArr _ | JObj _ => true
  | _ => false
  end.

(** * The trainer: [train_quantiles.py] *)

(** Line 27-32: the feature names the trainer stores in the artifact. *)
Definition trained_features : list string :=
  ["km"; "year"; "age"; "km_per_year"; "equipment_len"; "is_awd"; "is_auto";
   "is_electric"; "is_hybrid"; "season_month"; "supply_density"]%string.

Module Trainer.

(** The frame [pd.read_json] builds from the listing records: one row per
    record; a column exists when some record has the key, and a record
    without the key holds NaN there. *)
Definition has_key (key : string) (r : gmap string json) : bool :=
  match r !! key with
  | Some _ => true
  | None => false
  end.

(** [df[key]] *)
Definition column (df : list (gmap string json)) (key : string) : py (list json) :=
  if existsb (has_key key) df
  then ret (map (fun r => get r key JNull) df)
  else raise KeyError.

(** [df[key] = values] *)
Fixpoint assign (key : string) (values : list json) (df : list (gmap string json))
  : list (gmap string json) :=
  match df, values with
  | r :: df', v :: values' => <[key := v]> r :: assign key values' df'
  | _, _ => []
  end.

(** The [.str] accessor: pandas refuses it with [AttributeError] on a
    numeric column, which is what a column of numbers, booleans and nulls
    only is read as. *)
Definition str_accessor (col : list json) : py (list json) :=
  if existsb is_object_cell col then ret col else raise AttributeError.

(** Column arithmetic, cell by cell. *)
Fixpoint np_nums (col : list json) : py (list (option num)) :=
  match col with
  | [] => ret []
  | c :: col' =>
      let* x := np_num c in
      let* xs := np_nums col' in
      ret (x :: xs)
  end.

(** Line 16: [len(x) if isinstance(x, list) else 0] *)
Definition equipment_len (x : json) : json :=
  match x with
  | JArr l => JInt (Z.of_nat (length l))
  | _ => JInt 0
  end.

(** Line 18: [.str.lower() == 'auto']; a cell that is not a string lowers
    to NaN, which equals nothing. *)
Definition is_auto (x : json) : json :=
  match x with
  | JStr s => JInt (Z.b2z (String.eqb (lower s) "auto"))
  | _ => JInt 0
  end.

(** Line 20: [.str.contains('Hybrid', na=False)] *)
Definition is_hybrid (x : json) : json :=
  match x with
  | JStr s => JInt (Z.b2z (contains "Hybrid" s))
  | _ => JInt 0
  end.

Definition is_eq (text : string) (x : json) : json :=
  JInt (Z.b2z (cell_eq_str x text)).

(** [Series.median()]: the middle of the sorted values that are present,
    the mean of the two middle ones when their number is even, NaN when
    there is none. *)
Fixpoint insert_sorted (x : Q) (l : list Q) : list Q :=
  match l with
  | [] => [x]
  | y :: l' => if Qle_bool x y then x :: l else y :: insert_sorted x l'
  end.

Definition sort (l : list Q) : list Q := fold_right insert_sorted [] l.

Fixpoint present (col : list (option num)) : list Q :=
  match col with
  | [] => []
  | Some x :: col' => val x :: present col'
  | None :: col' => present col'
  end.

Definition median (col : list (option num)) : option num :=
  let s := sort (present col) in
  let n := length s in
  match n with
  | O => None
  | _ =>
      let h := Nat.div n 2 in
      if Nat.odd n then Some (PFloat (nth h s 0%Q))
      else Some (PFloat ((nth (h - 1) s 0 + nth h s 0) / 2)%Q)
  end.

(** [.fillna(value)] on a numeric column *)
Definition fillna (value : option num) (x : option num) : option num :=
  match x with
  | Some _ => x
  | None => value
  end.

(** The row of [df[features]] for one record. *)
Definition row (features : list string) (r : gmap string json) : list json :=
  map (fun f => fillna0 (get r f JNull)) features.

(** Lines 13-35: the frame, the feature matrix [X] and the target [y]. *)
Definition prepare (records : list (gmap string json))
  : py (list (list json) * list json) :=
  let df := records in
  let* c := column df "equipment" in
  let df := assign "equipment_len" (map equipment_len c) df in
  let* c := column df "driveline" in
  let df := assign "is_awd" (map (is_eq "AWD") c) df in
  let* c := column df "gear" in
  let* c := str_accessor c in
  let df := assign "is_auto" (map is_auto c) df in
  let* c := column df "fuel_type" in
  let df := assign "is_electric" (map (is_eq "Electric") c) df in
  let* c := column df "fuel_type" in
  let* c := str_accessor c in
  let df := assign "is_hybrid" (map is_hybrid c) df in
  let* c := column df "year" in
  let* year := np_nums c in
  let df := assign "age" (map (fun y => np_cell (np_sub (Some (PInt 2025)) y)) year) df in
  let* c := column df "km" in
  let* km := np_nums c in
  let* c := column df "age" in
  let* age := np_nums c in
  let df := assign "km_per_year"
              (map np_cell (zip_with np_div km (map (np_clip_lower 1) age))) df in
  let df := assign "season_month" (map (fun _ => JInt 1) df) df in
  let df := assign "supply_density" (map (fun _ => JInt 12) df) df in
  let X := map (row trained_features) df in
  let* c := column df "price" in
  let* price := np_nums c in
  let y := map (fun x => np_cell (fillna (median price) x)) price in
  ret (X, y).

Section Sklearn.

(** scikit-learn is left open: the training part of the seeded split, and
    the two estimators, each returning the fitted regressor as the function
    of a row. *)
Variable train_test_split :
  list (list json) -> list json -> py (list (list json) * list json).
Variable QuantileRegressor_fit :
  Q -> list (list json) -> list json -> py (list json -> py Q).
Variable RandomForestRegressor_fit :
  list (list json) -> list json -> py (list json -> py Q).

(** Lines 40-59 *)
Definition fit_quantile (X_train : list (list json)) (y_train : list json) (alpha : Q)
  : py (list json -> py Q) :=
  if Qeq_bool alpha 0.5
  then RandomForestRegressor_fit X_train y_train
  else QuantileRegressor_fit alpha X_train y_train.

(** Lines 13-75: the artifact written to disk. *)
Definition train (records : list (gmap string json)) : py artifact :=
  let* Xy := prepare records in
  let* tr := train_test_split (fst Xy) (snd Xy) in
  let* m_p10 := fit_quantile (fst tr) (snd tr) 0.10 in
  let* m_p50 := fit_quantile (fst tr) (snd tr) 0.50 in
  let* m_p90 := fit_quantile (fst tr) (snd tr) 0.90 in
  ret {| features := trained_features;
         model_p10 := m_p10;
         model_p50 := m_p50;
         model_p90 := m_p90 |}.

End Sklearn.

End Trainer.

(** * Payloads and predicates of the statements *)

(** The first scenario of the specification. *)
Definition scenario1 : gmap string json :=
  <["year" := JInt 2022]> (<["km" := JInt 20000]> (<["gear" := JStr "Automatic"]>
  (<["driveline" := JStr "AWD"]> (<["fuel_type" := JStr "Electric"]>
  (<["equipment_len" := JInt 10]> ∅))))).

(** The empty payload with every documented default written out. *)
Definition defaults_payload : gmap string json :=
  <["year" := JInt 2018]> (<["km" := JInt 100000]> (<["gear" := JStr "Manual"]>
  (<["driveline" := JStr "FWD"]> (<["fuel_type" := JStr "Petrol"]>
  (<["equipment_len" := JInt 0]> ∅))))).

(** A formatter to run the learned predictor with: strings print as they
    are, and every column is reported as [object]. *)
Definition plain_text (cell : json) : string :=
  match cell with
  | JStr s => s
  | _ => "NaN"
  end.

Definition object_dtype (cell : json) : string := "object".

(** An artifact to run the learned predictor with: the trained feature
    names, and three regressors that are linear in the first feature. *)
Definition linear_in_km (intercept : Q) (X : list json) : py Q :=
  match X with
  | JInt z :: _ => ret (intercept - inject_Z z / 2)%Q
  | JFloat q :: _ => ret (intercept - q / 2)%Q
  | _ => ret intercept
  end.

Definition example_artifact : artifact :=
  {| features := trained_features;
     model_p10 := linear_in_km 250000;
     model_p50 := linear_in_km 300000;
     model_p90 := linear_in_km 350000 |}.

(** The equipment count as the specification words it: the number of items
    of [equipment] when that is a sequence, else the [equipment_len] given,
    else 0. *)
Definition documented_equipment_len (payload : gmap string json) : json :=
  match payload !! "equipment" with
  | Some (JArr items) => JInt (Z.of_nat (length items))
  | _ =>
      match payload !! "equipment_len" with
      | Some v => v
      | None => JInt 0
      end
  end.

(** A payload that lists three pieces of equipment and gives no count. *)
Definition equipment_payload : gmap string json :=
  <["equipment" := JArr [JStr "Tow bar"; JStr "Heated seats"; JStr "Sunroof"]]> ∅.

(** The number in a cell, NaN for whatever is not one. *)
Definition np_val (cell : json) : option num :=
  match cell with
  | JInt z => Some (PInt z)
  | JFloat q => Some (PFloat q)
  | JBool b => Some (PInt (Z.b2z b))
  | _ => None
  end.

(** The row of the feature matrix of the trainer, read off one record. *)
Definition record_features (r : gmap string json) : list json :=
  let year := np_val (get r "year" JNull) in
  let km := np_val (get r "km" JNull) in
  let age := np_sub (Some (PInt 2025)) year in
  [ fillna0 (get r "km" JNull);
    fillna0 (get r "year" JNull);
    fillna0 (np_cell age);
    fillna0 (np_cell (np_div km (np_clip_lower 1 age)));
    Trainer.equipment_len (get r "equipment" JNull);
    Trainer.is_eq "AWD" (get r "driveline" JNull);
    Trainer.is_auto (get r "gear" JNull);
    Trainer.is_eq "Electric" (get r "fuel_type" JNull);
    Trainer.is_hybrid (get r "fuel_type" JNull);
    JInt 1;
    JInt 12 ].







(** Three listings: one complete, one without mileage and price, one
    without year and equipment. *)
Definition sample_records : list (gmap string json) :=
  [ <["year" := JInt 2022]> (<["km" := JInt 20000]> (<["gear" := JStr "Auto"]>
    (<["driveline" := JStr "AWD"]> (<["fuel_type" := JStr "Plug-in Hybrid"]>
    (<["equipment" := JArr [JStr "Tow bar"; JStr "Heated seats"]]>
    (<["price" := JInt 300000]> ∅))))));
    <["year" := JInt 2015]> (<["gear" := JStr "Manual"]>
    (<["driveline" := JStr "FWD"]> (<["fuel_type" := JStr "Diesel"]>
    (<["equipment" := JArr []]> (<["equipment_len" := JInt 7]>
    (<["price" := JNull]> ∅))))));
    <["km" := JInt 90000]> (<["gear" := JNull]>
    (<["fuel_type" := JStr "Petrol"]> (<["price" := JInt 100000]> ∅))) ].












(** * Arithmetic of the embedding *)

(** A run that returned went through every step: split the equation of the
    run into the equations of its steps. *)
Ltac bind_inv H :=
  repeat match type of H with
  | bind ?m _ = inr _ =>
      let E := fresh "E" in
      destruct m eqn:E; cbn [bind] in H; [discriminate H|]
  end.



Section Numbers.

Local Open Scope Q_scope.

Lemma Qle_bool_false (x y : Q) : Qle_bool x y = false <-> y < x.
Proof.
  split; intros H.
  - apply Qnot_le_lt. intros Hle. apply Qle_bool_iff in Hle. congruence.
  - destruct (Qle_bool x y) eqn:E; [|reflexivity].
    apply Qle_bool_iff in E. lra.
Qed.

Lemma py_le_iff (a b : num) : py_le a b = true <-> val a <= val b.
Proof. unfold py_le. apply Qle_bool_iff. Qed.

Lemma py_le_false (a b : num) : py_le a b = false <-> val b < val a.
Proof. unfold py_le. apply Qle_bool_false. Qed.


Lemma py_lt_false (a b : num) : py_lt a b = false <-> val b <= val a.
Proof.
  unfold py_lt. rewrite Bool.negb_false_iff. apply Qle_bool_iff.
Qed.





































End Numbers.

(** * The heuristic predictor *)

Section HeuristicFacts.

Local Open Scope Q_scope.



Ltac band_tests :=
  unfold Heuristic.base_price;
  repeat match goal with
  | |- context [py_le ?a ?b] =>
      let E := fresh "E" in
      destruct (py_le a b) eqn:E;
      [apply py_le_iff in E | apply py_le_false in E];
      cbn [val] in E; unfold inject_Z in E
  end.

(** C7. [base_price] is the step function of the age with the bands
    age <= 1: 350000, <= 3: 250000, <= 5: 180000, <= 7: 140000,
    <= 10: 100000, above 10: 70000; hence an older car never has the higher
    base price. *)
Theorem base_price_step_monotone :
  (forall age : num,
     (val age <= 1 -> Heuristic.base_price age = 350000%Z) /\
     (1 < val age <= 3 -> Heuristic.base_price age = 250000%Z) /\
     (3 < val age <= 5 -> Heuristic.base_price age = 180000%Z) /\
     (5 < val age <= 7 -> Heuristic.base_price age = 140000%Z) /\
     (7 < val age <= 10 -> Heuristic.base_price age = 100000%Z) /\
     (10 < val age -> Heuristic.base_price age = 70000%Z)) /\
  (forall a1 a2 : num,
     val a1 <= val a2 ->
     (Heuristic.base_price a1 >= Heuristic.base_price a2)%Z).
Proof.
  split.
  - intros age. repeat split; intros H; band_tests; solve [reflexivity | lra].
  - intros a1 a2 H. band_tests; solve [lia | lra].
Qed.

Lemma base_price_step_monotone_witness :
  Heuristic.base_price (PInt 2) = 250000%Z /\
  (Heuristic.base_price (PInt 2) >= Heuristic.base_price (PFloat 8.5))%Z.
Proof.
  split.
  - apply (proj1 (proj2 (proj1 base_price_step_monotone (PInt 2)))).
    cbn [val]. unfold inject_Z. lra.
  - apply (proj2 base_price_step_monotone (PInt 2) (PFloat 8.5)).
    cbn [val]. unfold inject_Z. lra.
Defined.

(** C10. Two payloads that agree on every key other than [driveline] get
    the same answer from the heuristic predictor, whatever the key holds in
    either and whether it is there at all. *)
Theorem heuristic_ignores_driveline (p1 p2 : gmap string json) :
  (forall key : string, key <> "driveline"%string -> p1 !! key = p2 !! key) ->
  Heuristic.predict p1 = Heuristic.predict p2.
Proof.
  intros H. unfold Heuristic.predict, Heuristic.run, get.
  rewrite !(H "year"%string), !(H "km"%string), !(H "gear"%string),
    !(H "fuel_type"%string), !(H "equipment_len"%string) by discriminate.
  reflexivity.
Qed.

Lemma heuristic_ignores_driveline_witness :
  Heuristic.predict (<["driveline" := JStr "AWD"]> (<["year" := JInt 2020]> ∅))
  = Heuristic.predict (<["year" := JInt 2020]> ∅).
Proof.
  apply heuristic_ignores_driveline.
  intros key Hkey. rewrite lookup_insert_ne by congruence. reflexivity.
Defined.



(** Each block of the script returns on operands in the double range. *)




















End HeuristicFacts.

(** * The learned predictor *)

Section LearnedFacts.

Local Open Scope Q_scope.

Variable cell_text : json -> string.
Variable dtype_name : json -> string.

Abbreviation is_auto := (Learned.is_auto cell_text dtype_name).
Abbreviation derive := (Learned.derive cell_text dtype_name).
Abbreviation feature_row := (Learned.feature_row cell_text dtype_name).
Abbreviation predict := (Learned.predict cell_text dtype_name).

(** The text of a Series starts with its index label, so it is never the
    word the script compares it with; the default is not that word
    either. *)
Lemma is_auto_zero (df : gmap string json) : is_auto df = 0%Z.
Proof.
  unfold Learned.is_auto, Learned.str_get.
  destruct (df !! "gear"%string); reflexivity.
Qed.

(** The cell a cell of numbers reads back as. *)
Lemma np_num_cell (x : option num) : np_num (np_cell x) = inr x.
Proof. destruct x as [[z|q]|]; reflexivity. Qed.

(** The derived frame, with every read traced back to the payload. *)
Lemma derive_unfold (payload : gmap string json) :
  derive payload =
  let* year := np_num (get payload "year" (JInt 2018)) in
  let* km := np_num (get payload "km" (JInt 100000)) in
  let age := np_sub (Some (PInt 2025)) year in
  ret (<["is_hybrid" :=
           JInt (Z.b2z (contains "Hybrid"
             (Learned.str_get cell_text dtype_name payload "fuel_type" "Petrol")))]>
      (<["is_electric" := JInt (Z.b2z (cell_eq_str
             (get payload "fuel_type" (JStr "Petrol")) "Electric"))]>
      (<["is_auto" := JInt 0]>
      (<["is_awd" := JInt (Z.b2z (cell_eq_str
             (get payload "driveline" (JStr "FWD")) "AWD"))]>
      (<["km_per_year" := np_cell (np_div km (np_clip_lower 1 age))]>
      (<["age" := np_cell age]> payload)))))).
Proof.
  unfold Learned.derive.
  destruct (np_num (get payload "year" (JInt 2018))) as [|year]; [reflexivity|].
  cbn [bind].
  unfold get at 1. rewrite lookup_insert_ne by discriminate. fold (get payload "km" (JInt 100000)).
  destruct (np_num (get payload "km" (JInt 100000))) as [|km]; [reflexivity|].
  cbn [bind].
  unfold get at 1. rewrite lookup_insert_eq. rewrite np_num_cell. cbn [bind].
  rewrite is_auto_zero.
  unfold Learned.is_hybrid, Learned.int_get_eq, Learned.str_get, get.
  repeat rewrite lookup_insert_ne by discriminate.
  reflexivity.
Qed.

(** The fill loop leaves the columns that exist and adds the others. *)
Lemma fill_lookup (features : list string) (df : gmap string json) (key : string) :
  Learned.fill features df !! key =
  match df !! key with
  | Some cell => Some cell
  | None => if bool_decide (key ∈ features) then Some (JInt 0) else None
  end.
Proof.
  unfold Learned.fill. revert df.
  induction features as [|f features IH]; intros df; cbn [fold_left].
  - destruct (df !! key); [reflexivity|].
    rewrite bool_decide_eq_false_2; [reflexivity | apply not_elem_of_nil].
  - rewrite IH. destruct (decide (key = f)) as [->|Hne].
    + destruct (df !! f) eqn:E.
      * rewrite E. reflexivity.
      * rewrite lookup_insert_eq.
        rewrite bool_decide_eq_true_2; [reflexivity | apply list_elem_of_here].
    + assert (L : (match df !! f with
                   | Some _ => df
                   | None => <[f := JInt 0]> df
                   end) !! key = df !! key).
      { destruct (df !! f); [reflexivity|]. apply lookup_insert_ne. congruence. }
      rewrite L. destruct (df !! key); [reflexivity|].
      destruct (decide (key ∈ features)) as [Hin|Hnin].
      * rewrite !bool_decide_eq_true_2; [reflexivity | | assumption].
        apply list_elem_of_further. assumption.
      * rewrite !bool_decide_eq_false_2; [reflexivity | | assumption].
        intros Hin. apply elem_of_cons in Hin as [?|?]; congruence.
Qed.

(** The row selected from a filled frame, entry by entry. *)
Lemma select_fill (features all : list string) (df : gmap string json) :
  (forall f, f ∈ features -> f ∈ all) ->
  Learned.select features (Learned.fill all df)
  = inr (map (fun f => fillna0 (get df f (JInt 0))) features).
Proof.
  induction features as [|f features IH]; intros Hsub; cbn [Learned.select map].
  - reflexivity.
  - rewrite fill_lookup. unfold get at 1.
    assert (Hin : f ∈ all) by (apply Hsub, list_elem_of_here).
    rewrite IH by (intros g Hg; apply Hsub, list_elem_of_further, Hg).
    destruct (df !! f); cbn [bind ret]; [reflexivity|].
    rewrite bool_decide_eq_true_2 by assumption. reflexivity.
Qed.

Lemma feature_row_unfold (features : list string) (payload : gmap string json) :
  feature_row features payload =
  let* df := derive payload in
  ret (map (fun f => fillna0 (get df f (JInt 0))) features).
Proof.
  unfold Learned.feature_row. destruct (derive payload) as [|df]; [reflexivity|].
  cbn [bind]. apply select_fill. auto.
Qed.

Lemma derive_is_auto (payload df : gmap string json) :
  derive payload = inr df -> df !! "is_auto"%string = Some (JInt 0).
Proof.
  rewrite derive_unfold. intros H. bind_inv H. injection H as <-.
  repeat rewrite lookup_insert_ne by discriminate.
  apply lookup_insert_eq.
Qed.

Lemma feature_row_gear (features : list string) (p1 p2 : gmap string json) :
  "gear"%string ∉ features ->
  (forall key : string, key <> "gear"%string -> p1 !! key = p2 !! key) ->
  feature_row features p1 = feature_row features p2.
Proof.
  intros Hg H. rewrite !feature_row_unfold, !derive_unfold.
  unfold get, Learned.str_get.
  rewrite !(H "year"%string), !(H "km"%string), !(H "fuel_type"%string),
    !(H "driveline"%string) by discriminate.
  destruct (np_num _) as [|year]; [reflexivity|]. cbn [bind].
  destruct (np_num _) as [|km]; [reflexivity|]. cbn [bind ret].
  f_equal. apply map_ext_in. intros f Hin. apply list_elem_of_In in Hin.
  assert (Hne : f <> "gear"%string) by (intros ->; contradiction).
  f_equal. rewrite !lookup_insert.
  repeat case_decide; try reflexivity. rewrite (H f Hne). reflexivity.
Qed.

(** C9. In the learned path [is_auto] is 0 whatever the payload holds, in
    the frame and in the row given to the regressors; so two payloads that
    agree on every key other than [gear] give the same row and, with an
    artifact that does not list [gear] as a feature, the same answer. *)
Theorem learned_is_auto_constant :
  (forall payload df : gmap string json,
     derive payload = inr df -> df !! "is_auto"%string = Some (JInt 0)) /\
  (forall (features : list string) (payload : gmap string json) (row : list json)
          (i : nat),
     feature_row features payload = inr row ->
     features !! i = Some "is_auto"%string ->
     row !! i = Some (JInt 0)) /\
  (forall (model : artifact) (p1 p2 : gmap string json),
     "gear"%string ∉ features model ->
     (forall key : string, key <> "gear"%string -> p1 !! key = p2 !! key) ->
     feature_row (features model) p1 = feature_row (features model) p2 /\
     predict model p1 = predict model p2).
Proof.
  split; [exact derive_is_auto|]. split.
  - intros features payload row i H Hi. rewrite feature_row_unfold in H.
    destruct (derive payload) as [|df] eqn:D; [discriminate|].
    cbn [bind ret] in H. injection H as <-.
    rewrite list_lookup_fmap, Hi. cbn [fmap option_fmap option_map].
    unfold get. rewrite (derive_is_auto _ _ D). reflexivity.
  - intros model p1 p2 Hg H.
    pose proof (feature_row_gear _ _ _ Hg H) as R. split; [exact R|].
    unfold Learned.predict. rewrite R.
    unfold Learned.probabilities, get.
    rewrite !(H "year"%string), !(H "km"%string) by discriminate.
    reflexivity.
Qed.





End LearnedFacts.

(** * The trainer *)

Section TrainerFacts.

Local Open Scope Q_scope.

Lemma assign_map (key : string) (h : gmap string json -> json)
    (df : list (gmap string json)) :
  Trainer.assign key (map h df) df = map (fun r => <[key := h r]> r) df.
Proof.
  induction df as [|r df IH]; cbn [map Trainer.assign]; [reflexivity|].
  rewrite IH. reflexivity.
Qed.

Lemma column_inv (df : list (gmap string json)) (key : string) (c : list json) :
  Trainer.column df key = inr c ->
  c = map (fun r => get r key JNull) df /\ df <> [].
Proof.
  unfold Trainer.column. destruct df as [|r df]; [discriminate|].
  destruct (existsb _ _); [|discriminate]. intros [= <-]. split; [reflexivity | discriminate].
Qed.

(** A column the engineered columns did not touch is read as from the
    records. *)
Lemma column_map (F : gmap string json -> gmap string json)
    (records : list (gmap string json)) (key : string) :
  (forall r, F r !! key = r !! key) ->
  Trainer.column (map F records) key = Trainer.column records key.
Proof.
  intros H. unfold Trainer.column. rewrite map_map.
  assert (E : existsb (Trainer.has_key key) (map F records)
              = existsb (Trainer.has_key key) records).
  { induction records as [|r records IH]; cbn [map existsb]; [reflexivity|].
    rewrite IH. unfold Trainer.has_key. rewrite H. reflexivity. }
  rewrite E. destruct (existsb _ records); [|reflexivity].
  f_equal. apply map_ext. intros r. unfold get. rewrite H. reflexivity.
Qed.

(** An engineered column is read back as it was assigned. *)
Lemma column_assigned (F : gmap string json -> gmap string json)
    (h : gmap string json -> json) (records : list (gmap string json))
    (key : string) :
  records <> [] -> (forall r, F r !! key = Some (h r)) ->
  Trainer.column (map F records) key = inr (map h records).
Proof.
  intros Hne H. unfold Trainer.column. rewrite map_map.
  destruct records as [|r records]; [contradiction|].
  cbn [map existsb]. unfold Trainer.has_key at 1. rewrite H. cbn [orb].
  unfold ret. f_equal. unfold get. rewrite H. f_equal.
  apply map_ext. intros r'. rewrite H. reflexivity.
Qed.

Lemma np_num_val (cell : json) (x : option num) :
  np_num cell = inr x -> x = np_val cell.
Proof. destruct cell; cbn; intros [= <-]; reflexivity. Qed.

Lemma np_nums_inv (c : list json) (xs : list (option num)) :
  Trainer.np_nums c = inr xs -> xs = map np_val c.
Proof.
  revert xs. induction c as [|cell c IH]; intros xs; cbn [Trainer.np_nums map].
  - intros [= <-]. reflexivity.
  - intros H. bind_inv H. injection H as <-.
    f_equal; [apply np_num_val; assumption | apply IH; reflexivity].
Qed.

Lemma np_nums_cells (xs : list (option num)) :
  Trainer.np_nums (map np_cell xs) = inr xs.
Proof.
  induction xs as [|x xs IH]; cbn [map Trainer.np_nums]; [reflexivity|].
  rewrite np_num_cell, IH. reflexivity.
Qed.

Lemma zip_with_map {A B C D : Type} (op : B -> C -> D) (f : A -> B) (g : A -> C)
    (l : list A) :
  zip_with op (map f l) (map g l) = map (fun a => op (f a) (g a)) l.
Proof.
  induction l as [|a l IH]; cbn; [reflexivity|]. rewrite IH. reflexivity.
Qed.


Lemma assign_map2 (key : string) (h : gmap string json -> json)
    (F : gmap string json -> gmap string json) (records : list (gmap string json)) :
  Trainer.assign key (map h records) (map F records)
  = map (fun r => <[key := h r]> (F r)) records.
Proof.
  induction records as [|r records IH]; cbn [map Trainer.assign]; [reflexivity|].
  rewrite IH. reflexivity.
Qed.

Lemma str_accessor_inv (c c' : list json) :
  Trainer.str_accessor c = inr c' -> c' = c.
Proof.
  unfold Trainer.str_accessor. destruct (existsb _ _); [|discriminate].
  intros [= <-]. reflexivity.
Qed.

Lemma fillna0_equipment_len (x : json) :
  fillna0 (Trainer.equipment_len x) = Trainer.equipment_len x.
Proof. destruct x; reflexivity. Qed.

Lemma fillna0_is_auto (x : json) : fillna0 (Trainer.is_auto x) = Trainer.is_auto x.
Proof. destruct x; reflexivity. Qed.

Lemma fillna0_is_hybrid (x : json) :
  fillna0 (Trainer.is_hybrid x) = Trainer.is_hybrid x.
Proof. destruct x; reflexivity. Qed.

Ltac untouched :=
  intros ?; repeat rewrite lookup_insert_ne by discriminate; reflexivity.

Ltac read_column key :=
  rewrite (column_map _ _ key) by untouched;
  let E := fresh "E" in
  destruct (Trainer.column _ key) as [?|?c] eqn:E; [reflexivity|];
  cbn [bind]; apply column_inv in E as [-> _].

(** The feature matrix and the target, with every read traced back to the
    records. *)
Lemma prepare_unfold (records : list (gmap string json)) :
  Trainer.prepare records =
  let* _ := Trainer.column records "equipment" in
  let* _ := Trainer.column records "driveline" in
  let* c := Trainer.column records "gear" in
  let* _ := Trainer.str_accessor c in
  let* c := Trainer.column records "fuel_type" in
  let* _ := Trainer.str_accessor c in
  let* c := Trainer.column records "year" in
  let* _ := Trainer.np_nums c in
  let* c := Trainer.column records "km" in
  let* _ := Trainer.np_nums c in
  let* c := Trainer.column records "price" in
  let* price := Trainer.np_nums c in
  ret (map record_features records,
       map (fun x => np_cell (Trainer.fillna (Trainer.median price) x)) price).
Proof.
  unfold Trainer.prepare.
  destruct (Trainer.column records "equipment") as [?|c] eqn:E; [reflexivity|].
  cbn [bind]. apply column_inv in E as [-> Hne].
  rewrite map_map, assign_map.
  read_column "driveline"%string. rewrite map_map, assign_map2.
  read_column "gear"%string.
  destruct (Trainer.str_accessor _) as [?|c] eqn:E; [reflexivity|].
  cbn [bind]. apply str_accessor_inv in E as ->.
  rewrite map_map, assign_map2.
  rewrite (column_map _ _ "fuel_type"%string) by untouched.
  destruct (Trainer.column records "fuel_type") as [?|c] eqn:Ef; [reflexivity|].
  cbn [bind]. pose proof (column_inv _ _ _ Ef) as [-> _].
  rewrite map_map, assign_map2.
  rewrite (column_map _ _ "fuel_type"%string) by untouched.
  rewrite Ef. cbn [bind].
  destruct (Trainer.str_accessor _) as [?|c] eqn:E; [reflexivity|].
  cbn [bind]. apply str_accessor_inv in E as ->.
  rewrite map_map, assign_map2.
  read_column "year"%string.
  destruct (Trainer.np_nums _) as [?|year] eqn:E; [reflexivity|].
  cbn [bind]. apply np_nums_inv in E as ->.
  rewrite !map_map, assign_map2.
  read_column "km"%string.
  destruct (Trainer.np_nums _) as [?|km] eqn:E; [reflexivity|].
  cbn [bind]. apply np_nums_inv in E as ->.
  rewrite (column_assigned _
             (fun r => np_cell (np_sub (Some (PInt 2025)) (np_val (get r "year" JNull))))
             records "age" Hne)
    by (intros r; apply lookup_insert_eq).
  cbn [bind].
  rewrite <- (map_map (fun r => np_sub (Some (PInt 2025)) (np_val (get r "year" JNull)))
                np_cell).
  rewrite np_nums_cells. cbn [bind].
  rewrite !map_map, zip_with_map, map_map, assign_map2.
  rewrite map_map, assign_map2. rewrite map_map, assign_map2.
  rewrite map_map.
  read_column "price"%string.
  destruct (Trainer.np_nums _) as [?|price] eqn:E; [reflexivity|].
  cbn [bind ret]. do 2 f_equal.
  apply map_ext. intros r.
  unfold Trainer.row, trained_features, record_features. cbn [map]. unfold get.
  repeat first [rewrite lookup_insert_eq | rewrite lookup_insert_ne by discriminate].
  rewrite fillna0_equipment_len, fillna0_is_auto, fillna0_is_hybrid.
  reflexivity.
Qed.









End TrainerFacts.

(** * Both predictors *)

Section Predictors.

Local Open Scope Q_scope.



Lemma learned_is_auto_constant_witness :
  Learned.predict plain_text object_dtype example_artifact
    (<["gear" := JStr "auto"]> scenario1)
  = Learned.predict plain_text object_dtype example_artifact scenario1.
Proof.
  apply (proj2 (proj2 (learned_is_auto_constant plain_text object_dtype))
           example_artifact).
  - cbn [features example_artifact]. unfold trained_features.
    intros H. repeat (apply elem_of_cons in H as [H|H]; [discriminate H|]).
    apply not_elem_of_nil in H. exact H.
  - intros key Hkey. rewrite lookup_insert_ne by congruence. reflexivity.
Defined.

(** C2, on the code. For the payload whose gear is ["auto"] the learned
    predictor derives [is_auto = 0], where the claim, and the trainer on
    the same gear, have 1. *)
Theorem learned_is_auto_misses_auto (cell_text dtype_name : json -> string) :
  exists df,
    Learned.derive cell_text dtype_name (<["gear" := JStr "auto"]> ∅) = inr df /\
    df !! "is_auto"%string = Some (JInt 0) /\
    Trainer.is_auto (JStr "auto") = JInt 1.
Proof.
  eexists. split; [reflexivity|]. split; reflexivity.
Qed.

(** C3, on the code. The heuristic predictor treats the empty payload as
    the payload of the defaults.  The learned predictor does not: its
    derived features use the defaults (the age is 7) but the raw [km] and
    [year] features are 0, not 100000 and 2018, and a regressor that reads
    them answers differently. *)
Theorem empty_payload_raw_features (cell_text dtype_name : json -> string) :
  Heuristic.predict ∅ = Heuristic.predict defaults_payload /\
  (exists row,
     Learned.feature_row cell_text dtype_name trained_features ∅ = inr row /\
     row !! 0%nat = Some (JInt 0) /\
     row !! 1%nat = Some (JInt 0) /\
     row !! 2%nat = Some (JInt 7)) /\
  (exists row,
     Learned.feature_row cell_text dtype_name trained_features defaults_payload
       = inr row /\
     row !! 0%nat = Some (JInt 100000) /\
     row !! 1%nat = Some (JInt 2018) /\
     row !! 2%nat = Some (JInt 7)) /\
  (exists r0 r1,
     Learned.predict plain_text object_dtype example_artifact ∅ = inr r0 /\
     Learned.predict plain_text object_dtype example_artifact defaults_payload
       = inr r1 /\
     p50 r0 = 300000%Z /\ p50 r1 = 250000%Z).
Proof.
  split; [vm_compute; reflexivity|].
  split; [eexists; split; [vm_compute; reflexivity | repeat split]|].
  split; [eexists; split; [vm_compute; reflexivity | repeat split]|].
  do 2 eexists. split; [vm_compute; reflexivity|].
  split; [vm_compute; reflexivity|]. split; reflexivity.
Qed.

(** C4, as the code has it.  For a payload that lists three pieces of
    equipment and no count, the documented count is 3; the heuristic
    predictor and the learned predictor both use 0. *)
Lemma equipment_sequence_not_counted :
  documented_equipment_len equipment_payload = JInt 3 /\
  (let* v := Heuristic.run equipment_payload in ret (Heuristic.v_equipment_score v))
    = inr (JInt 0) /\
  (let* row := Learned.feature_row plain_text object_dtype trained_features
                 equipment_payload in
   ret (row !! 4%nat)) = inr (Some (JInt 0)).
Proof. repeat split; vm_compute; reflexivity. Qed.

(** C4, amended.  The two predictors take the equipment count from the
    [equipment_len] of the payload, 0 when it is absent (and in the learned
    row also when it is null), whatever [equipment] holds; the trainer
    takes the number of items of [equipment] when that is a list and 0
    otherwise, whatever [equipment_len] holds. *)
Theorem equipment_count_by_path :
  (forall (payload : gmap string json) (v : Heuristic.vars),
     Heuristic.run payload = inr v ->
     Heuristic.v_equipment_score v = get payload "equipment_len" (JInt 0)) /\
  (forall (cell_text dtype_name : json -> string) (features : list string)
          (payload : gmap string json) (row : list json) (i : nat),
     Learned.feature_row cell_text dtype_name features payload = inr row ->
     features !! i = Some "equipment_len"%string ->
     row !! i = Some (fillna0 (get payload "equipment_len" (JInt 0)))) /\
  (forall (records : list (gmap string json)) (X : list (list json)) (y : list json)
          (i : nat) (r : gmap string json),
     Trainer.prepare records = inr (X, y) ->
     records !! i = Some r ->
     exists row,
       X !! i = Some row /\
       row !! 4%nat = Some match get r "equipment" JNull with
                           | JArr items => JInt (Z.of_nat (length items))
                           | _ => JInt 0
                           end).
Proof.
  split; [|split].
  - intros payload v H. unfold Heuristic.run, Heuristic.script in H.
    bind_inv H. injection H as <-. reflexivity.
  - intros cell_text dtype_name features payload row i H Hi.
    rewrite feature_row_unfold, derive_unfold in H.
    destruct (np_num (get payload "year" (JInt 2018))) as [|year]; [discriminate|].
    destruct (np_num (get payload "km" (JInt 100000))) as [|km]; [discriminate|].
    cbn [bind ret] in H. injection H as <-.
    rewrite list_lookup_fmap, Hi. cbn [fmap option_fmap option_map].
    unfold get. repeat rewrite lookup_insert_ne by discriminate. reflexivity.
  - intros records X y i r H Hi. rewrite prepare_unfold in H.
    bind_inv H. injection H as <- _.
    exists (record_features r). split; [|reflexivity].
    rewrite list_lookup_fmap, Hi. reflexivity.
Qed.

Lemma equipment_count_by_path_witness :
  exists v,
    Heuristic.run scenario1 = inr v /\
    Heuristic.v_equipment_score v = JInt 10.
Proof.
  eexists. split; [vm_compute; reflexivity|].
  rewrite (proj1 equipment_count_by_path scenario1); [|vm_compute; reflexivity].
  reflexivity.
Defined.

End Predictors.



(** * More on the heuristic predictor *)

Section HeuristicRuns.

Local Open Scope Q_scope.


















(** Same return, same value. *)
Ltac same_result :=
  repeat match goal with
  | E1 : ?x = inr ?a, E2 : ?x = inr ?b |- _ =>
      rewrite E1 in E2; injection E2 as <-
  | E1 : ?x = inr (?a, ?c), E2 : ?x = inr (?b, ?d) |- _ =>
      rewrite E1 in E2; injection E2 as <- <-
  end.



Lemma get_insert_eq (payload : gmap string json) (key : string) (j dflt : json) :
  get (<[key := j]> payload) key dflt = j.
Proof. unfold get. rewrite lookup_insert_eq. reflexivity. Qed.

Lemma get_insert_ne (payload : gmap string json) (key key' : string) (j dflt : json) :
  key <> key' -> get (<[key := j]> payload) key' dflt = get payload key' dflt.
Proof. intros H. unfold get. rewrite lookup_insert_ne by assumption. reflexivity. Qed.







End HeuristicRuns.

(** * More on the learned predictor *)

Section LearnedRuns.

Local Open Scope Q_scope.

Variable cell_text : json -> string.
Variable dtype_name : json -> string.

Abbreviation derive := (Learned.derive cell_text dtype_name).
Abbreviation feature_row := (Learned.feature_row cell_text dtype_name).
Abbreviation predict := (Learned.predict cell_text dtype_name).




(** X8.  A payload cannot set a derived feature: whatever it holds under
    [age], [km_per_year], [is_awd], [is_auto], [is_electric] or
    [is_hybrid] is overwritten before the row is selected. *)
Theorem derived_columns_shadow_payload (features : list string)
    (payload : gmap string json) (key : string) (j : json) :
  key ∈ ["age"; "km_per_year"; "is_awd"; "is_auto"; "is_electric"; "is_hybrid"]%string ->
  feature_row features (<[key := j]> payload) = feature_row features payload.
Proof.
  intros Hkey.
  assert (Hread : forall k : string,
            k ∈ ["year"; "km"; "driveline"; "fuel_type"]%string ->
            <[key := j]> payload !! k = payload !! k).
  { intros k Hk. apply lookup_insert_ne. intros ->.
    repeat (apply elem_of_cons in Hkey as [Hkey|Hkey];
            [subst; repeat (apply elem_of_cons in Hk as [Hk|Hk]; [discriminate Hk|]);
             apply not_elem_of_nil in Hk; exact Hk|]).
    apply not_elem_of_nil in Hkey. exact Hkey. }
  rewrite !(feature_row_unfold cell_text dtype_name),
    !(derive_unfold cell_text dtype_name).
  unfold get, Learned.str_get.
  rewrite !(Hread "year"%string), !(Hread "km"%string), !(Hread "driveline"%string),
    !(Hread "fuel_type"%string)
    by (repeat first [apply list_elem_of_here | apply list_elem_of_further]).
  destruct (np_num _) as [|year]; [reflexivity|]. cbn [bind].
  destruct (np_num _) as [|km]; [reflexivity|]. cbn [bind ret].
  f_equal. apply map_ext. intros f. f_equal.
  rewrite !lookup_insert.
  repeat (apply elem_of_cons in Hkey as [Hkey|Hkey];
          [subst key; repeat case_decide; congruence|]).
  apply not_elem_of_nil in Hkey. contradiction.
Qed.

(** The features the trainer fixes to constants are not derived at
    prediction time: the row takes [season_month] and [supply_density]
    from the payload, and has 0 for them when the payload has not got
    them. *)
Lemma feature_row_constants (payload : gmap string json) (row : list json) :
  feature_row trained_features payload = inr row ->
  row !! 9%nat = Some (fillna0 (get payload "season_month" (JInt 0))) /\
  row !! 10%nat = Some (fillna0 (get payload "supply_density" (JInt 0))).
Proof.
  rewrite (feature_row_unfold cell_text dtype_name),
    (derive_unfold cell_text dtype_name).
  destruct (np_num _) as [|year]; [discriminate|]. cbn [bind].
  destruct (np_num _) as [|km]; [discriminate|]. cbn [bind ret].
  intros [= <-]. unfold trained_features. cbn [map lookup list_lookup].
  unfold get. repeat rewrite lookup_insert_ne by discriminate.
  split; reflexivity.
Qed.

Lemma predict_gear (model : artifact) (p1 p2 : gmap string json) :
  "gear"%string ∉ features model ->
  (forall key : string, key <> "gear"%string -> p1 !! key = p2 !! key) ->
  predict model p1 = predict model p2.
Proof.
  intros Hg H. unfold Learned.predict.
  rewrite (feature_row_gear cell_text dtype_name _ _ _ Hg H).
  unfold Learned.probabilities, get.
  rewrite !(H "year"%string), !(H "km"%string) by discriminate.
  reflexivity.
Qed.






(** X11.  The learned predictor passes the three regressors' answers through,
    truncated and in no way ordered; and whenever the upper answer is not
    more than 1 above the lower one (crossed quantiles included) the
    probabilities are those of the narrowest band. *)
Theorem learned_quantiles_pass_through (model : artifact)
    (payload : gmap string json) (r : result) :
  predict model payload = inr r ->
  exists X q10 q50 q90,
    feature_row (features model) payload = inr X /\
    model_p10 model X = inr q10 /\
    model_p50 model X = inr q50 /\
    model_p90 model X = inr q90 /\
    p10 r = Qtrunc q10 /\ p50 r = Qtrunc q50 /\ p90 r = Qtrunc q90 /\
    (q90 - q10 <= 1 ->
     Learned.probabilities payload q10 q90 = Learned.probabilities payload 0 1).
Proof.
  unfold Learned.predict. intros H.
  destruct (feature_row _ payload) as [|X]; [discriminate|]. cbn [bind] in H.
  destruct (model_p10 model X) as [|q10] eqn:E10; [discriminate|]. cbn [bind] in H.
  destruct (model_p50 model X) as [|q50] eqn:E50; [discriminate|]. cbn [bind] in H.
  destruct (model_p90 model X) as [|q90] eqn:E90; [discriminate|]. cbn [bind] in H.
  destruct (Learned.probabilities payload q10 q90) as [|pr]; [discriminate|].
  cbn [bind] in H.
  destruct (to_float (fst pr)); [discriminate|]. cbn [bind] in H.
  destruct (to_float (snd pr)); [discriminate|]. cbn [bind ret] in H.
  injection H as <-. cbn [p10 p50 p90].
  exists X, q10, q50, q90. repeat split; try assumption.
  intros Hd. unfold Learned.probabilities.
  change (py_sub (PFloat q90) (PFloat q10)) with (@inr exn num (PFloat (q90 - q10))).
  change (py_sub (PFloat 1) (PFloat 0)) with (@inr exn num (PFloat (1 - 0))).
  cbn [bind].
  assert (B1 : py_max (PInt 1) (PFloat (q90 - q10)) = PInt 1).
  { unfold py_max, py_gt.
    assert (L : py_lt (PInt 1) (PFloat (q90 - q10)) = false)
      by (apply py_lt_false; cbn [val]; unfold inject_Z; lra).
    rewrite L. reflexivity. }
  assert (B2 : py_max (PInt 1) (PFloat (1 - 0)) = PInt 1) by reflexivity.
  rewrite B1, B2. reflexivity.
Qed.

End LearnedRuns.


Lemma derived_columns_shadow_payload_witness :
  Learned.feature_row plain_text object_dtype trained_features
    (<["age" := JInt 1]> scenario1)
  = Learned.feature_row plain_text object_dtype trained_features scenario1.
Proof.
  apply derived_columns_shadow_payload. apply list_elem_of_here.
Defined.




Lemma learned_quantiles_pass_through_witness :
  exists r X q10 q50 q90,
    Learned.predict plain_text object_dtype example_artifact scenario1 = inr r /\
    Learned.feature_row plain_text object_dtype (features example_artifact) scenario1
      = inr X /\
    model_p10 example_artifact X = inr q10 /\
    model_p50 example_artifact X = inr q50 /\
    model_p90 example_artifact X = inr q90 /\
    p10 r = Qtrunc q10 /\ p50 r = Qtrunc q50 /\ p90 r = Qtrunc q90.
Proof.
  eexists.
  assert (H : Learned.predict plain_text object_dtype example_artifact scenario1
              = inr {| p10 := 240000; p50 := 290000; p90 := 340000;
                       prob14 := 0.85; prob30 := 0.95 |})
    by (vm_compute; reflexivity).
  destruct (learned_quantiles_pass_through plain_text object_dtype example_artifact
              scenario1 _ H) as (X & q10 & q50 & q90 & HX & H10 & H50 & H90 & T10 & T50 & T90 & _).
  exists X, q10, q50, q90.
  exact (conj H (conj HX (conj H10 (conj H50 (conj H90 (conj T10 (conj T50 T90))))))).
Defined.

(** * The trainer and the predictors together *)

Section Pipeline.

Local Open Scope Q_scope.

(** X12.  The heuristic predictor and the trainer do not agree on what an
    automatic gearbox is.  A gear the trainer marks as automatic gets the
    heuristic premium; but [Automatic] and [Automat], in any case of
    letters, get the premium and are not automatic for the trainer. *)
Theorem gear_matching_differs (s : string) (base_price : Z) :
  (Trainer.is_auto (JStr s) = JInt 1 ->
   Heuristic.trans_adjustment (JStr s) base_price
   = py_mul (PInt base_price) (PFloat 0.05)) /\
  (lower s = "automatic"%string \/ lower s = "automat"%string ->
   Heuristic.trans_adjustment (JStr s) base_price
   = py_mul (PInt base_price) (PFloat 0.05) /\
   Trainer.is_auto (JStr s) = JInt 0).
Proof.
  unfold Trainer.is_auto, Heuristic.trans_adjustment. cbn [existsb]. split.
  - intros H. destruct (String.eqb (lower s) "auto"); [reflexivity | discriminate].
  - intros [-> | ->]; split; reflexivity.
Qed.

Lemma gear_matching_differs_witness :
  Heuristic.trans_adjustment (JStr "Automatic") 250000
  = py_mul (PInt 250000) (PFloat 0.05) /\
  Trainer.is_auto (JStr "Automatic") = JInt 0.
Proof.
  apply (proj2 (gear_matching_differs "Automatic" 250000)). left. reflexivity.
Defined.

(** X13.  Every row the trainer fits on has [season_month = 1] and
    [supply_density = 12]; the row the learned predictor builds for a
    payload without these keys has 0 for both. *)
Theorem training_constants_not_served :
  (forall (records : list (gmap string json)) (X : list (list json)) (y : list json)
          (row : list json),
     Trainer.prepare records = inr (X, y) ->
     row ∈ X ->
     row !! 9%nat = Some (JInt 1) /\ row !! 10%nat = Some (JInt 12)) /\
  (forall (cell_text dtype_name : json -> string) (payload : gmap string json)
          (row : list json),
     Learned.feature_row cell_text dtype_name trained_features payload = inr row ->
     payload !! "season_month"%string = None ->
     payload !! "supply_density"%string = None ->
     row !! 9%nat = Some (JInt 0) /\ row !! 10%nat = Some (JInt 0)).
Proof.
  split.
  - intros records X y row H Hin. rewrite prepare_unfold in H.
    bind_inv H. injection H as <- _.
    apply list_elem_of_fmap in Hin as (r & -> & _). split; reflexivity.
  - intros cell_text dtype_name payload row H S1 S2.
    destruct (feature_row_constants cell_text dtype_name payload row H) as [-> ->].
    unfold get. rewrite S1, S2. split; reflexivity.
Qed.

Lemma training_constants_not_served_witness :
  exists row,
    Learned.feature_row plain_text object_dtype trained_features scenario1 = inr row /\
    row !! 9%nat = Some (JInt 0) /\ row !! 10%nat = Some (JInt 0).
Proof.
  eexists. split; [vm_compute; reflexivity|].
  apply (proj2 training_constants_not_served plain_text object_dtype scenario1);
    vm_compute; reflexivity.
Defined.















(** X17.  What the trainer hands to the learned predictor.  An artifact the
    trainer returns lists the eleven trained features; with it, every row
    given to the regressors has eleven entries, and two payloads that
    differ in [gear] only get the same answer. *)
Theorem trained_artifact_serves
    (train_test_split :
       list (list json) -> list json -> py (list (list json) * list json))
    (QuantileRegressor_fit :
       Q -> list (list json) -> list json -> py (list json -> py Q))
    (RandomForestRegressor_fit :
       list (list json) -> list json -> py (list json -> py Q))
    (records : list (gmap string json)) (model : artifact) :
  Trainer.train train_test_split QuantileRegressor_fit RandomForestRegressor_fit records
    = inr model ->
  features model = trained_features /\
  (forall (cell_text dtype_name : json -> string) (payload : gmap string json)
          (X : list json),
     Learned.feature_row cell_text dtype_name (features model) payload = inr X ->
     length X = 11%nat) /\
  (forall (cell_text dtype_name : json -> string) (p1 p2 : gmap string json),
     (forall key : string, key <> "gear"%string -> p1 !! key = p2 !! key) ->
     Learned.predict cell_text dtype_name model p1
     = Learned.predict cell_text dtype_name model p2).
Proof.
  unfold Trainer.train. intros H.
  destruct (Trainer.prepare records) as [|[X y]] eqn:P; [discriminate|].
  cbn [bind fst snd] in H. bind_inv H. injection H as <-. cbn [features].
  split; [reflexivity|]. split.
  - intros cell_text dtype_name payload row Hrow.
    rewrite feature_row_unfold in Hrow.
    destruct (Learned.derive _ _ payload); [discriminate|].
    cbn [bind ret] in Hrow. injection Hrow as <-. reflexivity.
  - intros cell_text dtype_name pa pb Hp. apply predict_gear; [|exact Hp].
    cbn [features]. unfold trained_features. intros Hin.
    repeat (apply elem_of_cons in Hin as [Hin|Hin]; [discriminate Hin|]).
    apply not_elem_of_nil in Hin. exact Hin.
Qed.

Lemma trained_artifact_serves_witness :
  exists model,
    Trainer.train (fun X y => ret (X, y))
      (fun alpha _ _ => ret (linear_in_km (300000 * alpha)))
      (fun _ _ => ret (linear_in_km 150000)) sample_records = inr model /\
    features model = trained_features.
Proof.
  eexists. split; [reflexivity|].
  eapply (trained_artifact_serves (fun X y => ret (X, y))
            (fun alpha _ _ => ret (linear_in_km (300000 * alpha)))
            (fun _ _ => ret (linear_in_km 150000)) sample_records).
  reflexivity.
Defined.







(** X6.  For the heuristic predictor a key that is absent and a key that holds
    its documented default are the same thing, whatever the rest of the
    payload. *)
Theorem heuristic_absent_key_is_default (payload : gmap string json) :
  (payload !! "year"%string = None ->
   Heuristic.predict (<["year" := JInt 2018]> payload) = Heuristic.predict payload) /\
  (payload !! "km"%string = None ->
   Heuristic.predict (<["km" := JInt 100000]> payload) = Heuristic.predict payload) /\
  (payload !! "gear"%string = None ->
   Heuristic.predict (<["gear" := JStr "Manual"]> payload) = Heuristic.predict payload) /\
  (payload !! "fuel_type"%string = None ->
   Heuristic.predict (<["fuel_type" := JStr "Petrol"]> payload)
   = Heuristic.predict payload) /\
  (payload !! "equipment_len"%string = None ->
   Heuristic.predict (<["equipment_len" := JInt 0]> payload)
   = Heuristic.predict payload).
Proof.
  assert (A : forall (key : string) (dflt : json),
            payload !! key = None -> get payload key dflt = dflt)
    by (intros key dflt H; unfold get; rewrite H; reflexivity).
  unfold Heuristic.predict, Heuristic.run.
  split; [|split; [|split; [|split]]]; intros H;
    rewrite get_insert_eq, !get_insert_ne by discriminate;
    rewrite (A _ _ H); reflexivity.
Qed.

Lemma heuristic_absent_key_is_default_witness :
  Heuristic.predict (<["gear" := JStr "Manual"]> (<["year" := JInt 2012]> ∅))
  = Heuristic.predict (<["year" := JInt 2012]> ∅).
Proof.
  apply (proj1 (proj2 (proj2
           (heuristic_absent_key_is_default (<["year" := JInt 2012]> ∅))))).
  vm_compute. reflexivity.
Defined.

End Pipeline.
